(** * Shallow embedding of the datacenter handlers and service subscribers
    of the api-gateway (src/datacenters.go, src/unnamed/part_000).

    The HTTP handlers are modelled as functions from the authenticated user,
    the decoded request and the backing store to an outcome and the new store.
    The store operations that the handlers call on [Datacenter]
    ([FindByID], [FindByName], [FindAll], [Save], [Delete], [Services],
    [Redact], [Improve], [Validate], [Map]) and [AuthenticatedUser.Datacenters]
    are not part of the sources; they are modelled from the spec and say so. *)

From Stdlib Require Import ZArith String List Bool Ascii Lia.
Import ListNotations.
Open Scope string_scope.
Open Scope Z_scope.
Open Scope list_scope.

(** ** Data model *)

Record AuthenticatedUser := mkAuthenticatedUser {
  au_ID : Z;
  au_Username : string;
  au_GroupID : Z;
  au_Admin : bool
}.

Record Datacenter := mkDatacenter {
  dc_ID : Z;
  dc_GroupID : Z;
  dc_Name : string;
  dc_Type : string;
  dc_Username : string;
  dc_Password : string;
  dc_AccessKeyID : string;
  dc_SecretAccessKey : string;
  dc_VCloudURL : string
}.

Record Service := mkService {
  sv_ID : string;
  sv_Name : string;
  sv_GroupID : Z;
  sv_DatacenterID : Z
}.

(** Go zero values. *)
Definition zero_Datacenter : Datacenter :=
  mkDatacenter 0 0 "" "" "" "" "" "" "".

Definition zero_Service : Service := mkService "" "" 0 0.

(** A request body as JSON: each field present or omitted.  A body that
    does not decode at all is [None] at the use sites. *)
Record DatacenterJSON := mkDatacenterJSON {
  j_ID : option Z;
  j_GroupID : option Z;
  j_Name : option string;
  j_Type : option string;
  j_Username : option string;
  j_Password : option string;
  j_AccessKeyID : option string;
  j_SecretAccessKey : option string;
  j_VCloudURL : option string
}.

Definition with_default {A} (x : A) (o : option A) : A :=
  match o with Some v => v | None => x end.

(** Field updates, as Go's assignments [d.F = v]. *)
Definition set_ID (d : Datacenter) (v : Z) : Datacenter :=
  mkDatacenter v d.(dc_GroupID) d.(dc_Name) d.(dc_Type) d.(dc_Username)
    d.(dc_Password) d.(dc_AccessKeyID) d.(dc_SecretAccessKey) d.(dc_VCloudURL).

Definition set_GroupID (d : Datacenter) (v : Z) : Datacenter :=
  mkDatacenter d.(dc_ID) v d.(dc_Name) d.(dc_Type) d.(dc_Username)
    d.(dc_Password) d.(dc_AccessKeyID) d.(dc_SecretAccessKey) d.(dc_VCloudURL).

Definition set_credentials (d : Datacenter) (u p a s : string) : Datacenter :=
  mkDatacenter d.(dc_ID) d.(dc_GroupID) d.(dc_Name) d.(dc_Type) u p a s
    d.(dc_VCloudURL).

(** ** Backing store *)

Record Store := mkStore {
  datacenters : list Datacenter;
  services : list Service
}.

(** Which backend calls fail on a given request (RPC timeouts, store errors). *)
Record Faults := mkFaults {
  save_fails : bool;
  delete_fails : bool;
  services_fails : bool
}.

Definition no_faults : Faults := mkFaults false false false.

Inductive error :=
| ErrBadReqBody
| ErrUnauthorized
| ErrInternal
| ErrNotFound
| ErrStore
| HTTPError (code : Z) (msg : string).

(** ** Operations used by the handlers but absent from the sources *)

(** Modelled from the spec: [Datacenter.Map] (decode the request body into a
    fresh [Datacenter]; omitted fields keep their zero value). *)
Definition Map (body : option DatacenterJSON) : option Datacenter :=
  match body with
  | None => None
  | Some j =>
      Some (mkDatacenter (with_default 0 j.(j_ID)) (with_default 0 j.(j_GroupID))
              (with_default "" j.(j_Name)) (with_default "" j.(j_Type))
              (with_default "" j.(j_Username)) (with_default "" j.(j_Password))
              (with_default "" j.(j_AccessKeyID))
              (with_default "" j.(j_SecretAccessKey))
              (with_default "" j.(j_VCloudURL)))
  end.

(** Modelled from the spec: [Datacenter.Validate] (required fields present). *)
Definition Validate (d : Datacenter) : option string :=
  if String.eqb d.(dc_Name) "" then Some "name is required"%string
  else if String.eqb d.(dc_Type) "" then Some "type is required"%string
  else None.

(** Modelled from the spec: [Datacenter.FindByID] (the entity with that
    identifier, or NotFound). *)
Definition FindByID (id : Z) (st : Store) : option Datacenter :=
  find (fun d => d.(dc_ID) =? id) st.(datacenters).

(** Modelled from the spec: [Datacenter.FindByName] (name lookup across all
    tenants). *)
Definition FindByName (name : string) (st : Store) : option Datacenter :=
  find (fun d => String.eqb d.(dc_Name) name) st.(datacenters).

(** Modelled from the spec: [Datacenter.FindAll] (every stored entity; the
    backend call may fail). *)
Definition FindAll (fails : bool) (st : Store) : list Datacenter + error :=
  if fails then inr ErrStore else inl st.(datacenters).

(** Modelled from the spec: [AuthenticatedUser.Datacenters] (the entities of
    the user's own group). *)
Definition au_Datacenters (fails : bool) (au : AuthenticatedUser) (st : Store)
  : list Datacenter + error :=
  if fails then inr ErrStore
  else inl (filter (fun d => d.(dc_GroupID) =? au.(au_GroupID)) st.(datacenters)).

(** Modelled from the spec: [Datacenter.Services] (the services referencing
    this datacenter's identifier). *)
Definition Services (fl : Faults) (d : Datacenter) (st : Store)
  : list Service + string :=
  if fl.(services_fails) then inr "services lookup failed"%string
  else inl (filter (fun s => s.(sv_DatacenterID) =? d.(dc_ID)) st.(services)).

Definition max_ID (l : list Datacenter) : Z :=
  fold_right (fun d m => Z.max d.(dc_ID) m) 0 l.

Fixpoint replace_first (d : Datacenter) (l : list Datacenter) : option (list Datacenter) :=
  match l with
  | [] => None
  | x :: r =>
      if x.(dc_ID) =? d.(dc_ID) then Some (d :: r)
      else option_map (cons x) (replace_first d r)
  end.

Fixpoint remove_first (id : Z) (l : list Datacenter) : list Datacenter :=
  match l with
  | [] => []
  | x :: r => if x.(dc_ID) =? id then r else x :: remove_first id r
  end.

(** Modelled from the spec: [Datacenter.Save] (assigns an identifier when
    absent and inserts; otherwise mutates the stored entity in place).
    It returns the saved entity, as Go's pointer receiver updates [d]. *)
Definition Save (fl : Faults) (d : Datacenter) (st : Store)
  : (Datacenter * Store) + error :=
  if fl.(save_fails) then inr ErrStore
  else if d.(dc_ID) =? 0 then
    let d' := set_ID d (max_ID st.(datacenters) + 1) in
    inl (d', mkStore (st.(datacenters) ++ [d']) st.(services))
  else
    match replace_first d st.(datacenters) with
    | Some l => inl (d, mkStore l st.(services))
    | None => inl (d, mkStore (st.(datacenters) ++ [d]) st.(services))
    end.

(** Modelled from the spec: [Datacenter.Delete] (removes the entity). *)
Definition Delete (fl : Faults) (d : Datacenter) (st : Store) : Store + error :=
  if fl.(delete_fails) then inr ErrStore
  else inl (mkStore (remove_first d.(dc_ID) st.(datacenters)) st.(services)).

(** Modelled from the spec: [Datacenter.Redact] (strips the secret fields). *)
Definition Redact (d : Datacenter) : Datacenter :=
  mkDatacenter d.(dc_ID) d.(dc_GroupID) d.(dc_Name) d.(dc_Type) d.(dc_Username)
    "" "" "" d.(dc_VCloudURL).


(** ** HTTP outcomes *)

Inductive payload :=
| PDatacenter (d : Datacenter)
| PDatacenters (l : list Datacenter)
| PText (s : string).

(** [Respond code body] is a written response ([c.JSONBlob], [c.String]);
    [Err e] is an error returned to the framework. *)
Inductive outcome :=
| Respond (code : Z) (body : payload)
| Err (e : error).

Definition nl : string := String (ascii_of_nat 10) EmptyString.

(** The 401 body of [createDatacenterHandler], with its embedded newline. *)
Definition msg_no_group : string :=
  String.concat "" ["Current user does not belong to any group."; nl;
    "Please assign the user to a group before performing this action"].

(** ** Handlers of src/datacenters.go *)

(** [getDatacentersHandler]: lines 18-43.  [lookup_fails] says whether the
    backend lookup ([FindAll] or [au.Datacenters()]) fails; its error is
    returned (lines 30-32).  Modelled from the spec: [Datacenter.Improve] is
    an enrichment extension point with no code, so the handler is parametric
    in it. *)
Section Listing.
Variable Improve : Datacenter -> Datacenter.

Definition getDatacentersHandler (lookup_fails : bool) (au : AuthenticatedUser)
    (st : Store) : outcome :=
  let r := if au.(au_Admin) then FindAll lookup_fails st
           else au_Datacenters lookup_fails au st in
  match r with
  | inr err => Err err
  | inl datacenters =>
    Respond 200 (PDatacenters (map (fun d => Improve (Redact d)) datacenters))
  end.
End Listing.

(** [createDatacenterHandler]: lines 65-100.  A failed [Save] is only logged. *)
Definition createDatacenterHandler (fl : Faults) (au : AuthenticatedUser)
    (body : option DatacenterJSON) (st : Store) : outcome * Store :=
  if au.(au_GroupID) =? 0 then (Respond 401 (PText msg_no_group), st)
  else match Map body with
  | None => (Err ErrBadReqBody, st)
  | Some d =>
    match Validate d with
    | Some e => (Err (HTTPError 400 e), st)
    | None =>
      let d := set_GroupID d au.(au_GroupID) in
      match FindByName d.(dc_Name) st with
      | Some _ => (Err (HTTPError 409 "Specified datacenter already exists"), st)
      | None =>
        match Save fl d st with
        | inr _ => (Respond 200 (PDatacenter d), st)
        | inl (d', st') => (Respond 200 (PDatacenter d'), st')
        end
      end
    end
  end.

(** [updateDatacenterHandler]: lines 104-138.  The ownership test compares
    the caller's group with itself, as the source does; a failed [Save] is
    only logged; the response serialises the request entity [d]. *)
Definition updateDatacenterHandler (fl : Faults) (au : AuthenticatedUser)
    (body : option DatacenterJSON) (id : Z) (st : Store) : outcome * Store :=
  match Map body with
  | None => (Err ErrBadReqBody, st)
  | Some d =>
    match FindByID id st with
    | None => (Err ErrNotFound, st)
    | Some existing =>
      if negb (au.(au_GroupID) =? au.(au_GroupID)) then (Err ErrUnauthorized, st)
      else
        let existing := set_credentials existing d.(dc_Username) d.(dc_Password)
                          d.(dc_AccessKeyID) d.(dc_SecretAccessKey) in
        let st := match Save fl existing st with
                  | inr _ => st
                  | inl (_, st') => st'
                  end in
        (Respond 200 (PDatacenter d), st)
    end
  end.

(** [deleteDatacenterHandler]: lines 142-170. *)
Definition deleteDatacenterHandler (fl : Faults) (au : AuthenticatedUser)
    (id : Z) (st : Store) : outcome * Store :=
  match FindByID id st with
  | None => (Err ErrNotFound, st)
  | Some d =>
    if negb (au.(au_GroupID) =? d.(dc_GroupID)) then (Err ErrUnauthorized, st)
    else match Services fl d st with
    | inr e => (Err (HTTPError 500 e), st)
    | inl ss =>
      if 0 <? Z.of_nat (length ss) then
        (Err (HTTPError 400 "Existing services are referring to this datacenter."), st)
      else match Delete fl d st with
      | inr e => (Err e, st)
      | inl st' => (Respond 200 (PText ""), st')
      end
    end
  end.

(** ** Service subscribers of src/unnamed/part_000 *)

Definition mockServices : list Service :=
  [ mkService "1" "test" 1 1;
    mkService "2" "test2" 2 3 ].

(** An inbound bus message: the reply address and the payload, [None] when
    [msg.Data] is empty, otherwise the query [json.Unmarshal] leaves in [qs]
    (its errors are ignored by the source). *)
Record Msg := mkMsg {
  msg_Reply : string;
  msg_Data : option Service
}.

Inductive reply_data :=
| RService (s : Service)
| RServices (l : list Service)
| RRaw (s : string).

Record Publication := mkPublication {
  pub_subject : string;
  pub_data : reply_data
}.

Definition dq : string := String (ascii_of_nat 34) EmptyString.

(** The bytes [{"error":"not found"}]. *)
Definition not_found_payload : string :=
  String.concat "" ["{"; dq; "error"; dq; ":"; dq; "not found"; dq; "}"].

(** The [for _, service := range mockServices] loop of the [service.get]
    subscriber: the first service that matches the query. *)
Fixpoint get_loop (qs : Service) (l : list Service) : option Service :=
  match l with
  | [] => None
  | service :: rest =>
    if negb (qs.(sv_GroupID) =? 0) && (service.(sv_GroupID) =? qs.(sv_GroupID))
       && String.eqb service.(sv_ID) qs.(sv_ID) then Some service
    else if (qs.(sv_GroupID) =? 0) && String.eqb service.(sv_ID) qs.(sv_ID)
    then Some service
    else get_loop qs rest
  end.

(** [getServiceSubcriber]: the messages published for one inbound message. *)
Definition getServiceSubcriber (store : list Service) (msg : Msg) : list Publication :=
  match msg.(msg_Data) with
  | Some qs =>
    match get_loop qs store with
    | Some service => [mkPublication msg.(msg_Reply) (RService service)]
    | None => [mkPublication msg.(msg_Reply) (RRaw not_found_payload)]
    end
  | None => [mkPublication msg.(msg_Reply) (RRaw not_found_payload)]
  end.

(** [findServiceSubcriber]. *)
Definition findServiceSubcriber (store : list Service) (msg : Msg) : list Publication :=
  [mkPublication msg.(msg_Reply) (RServices store)].

(** ** Sanity checks on concrete inputs *)

Example get_service_1 :
  getServiceSubcriber mockServices (mkMsg "r" (Some (mkService "1" "" 0 0)))
  = [mkPublication "r" (RService (mkService "1" "test" 1 1))].
Proof. reflexivity. Qed.

Example get_service_group_mismatch :
  getServiceSubcriber mockServices (mkMsg "r" (Some (mkService "1" "" 2 0)))
  = [mkPublication "r" (RRaw not_found_payload)].
Proof. reflexivity. Qed.

Example not_found_payload_length : String.length not_found_payload = 21%nat.
Proof. reflexivity. Qed.

(** ** Store invariant and helper lemmas *)

(** Every stored datacenter carries an identifier: [Save] assigns one when
    absent, and nothing else inserts. *)
Definition store_ok (st : Store) : Prop :=
  Forall (fun d => d.(dc_ID) <> 0) st.(datacenters).

Lemma find_split {A} (f : A -> bool) (l : list A) (x : A) :
  find f l = Some x ->
  exists pre post, l = pre ++ x :: post /\
    forallb (fun y => negb (f y)) pre = true /\ f x = true.
Proof.
  induction l as [|y r IH]; simpl; [discriminate|].
  case_eq (f y); intros Hfy Hfind.
  - injection Hfind as <-. exists [], r. auto.
  - destruct (IH Hfind) as (pre & post & -> & Hpre & Hx).
    exists (y :: pre), post. simpl. rewrite Hfy. auto.
Qed.

Lemma replace_first_split (pre post : list Datacenter) (x d : Datacenter) :
  forallb (fun y => negb (y.(dc_ID) =? d.(dc_ID))) pre = true ->
  x.(dc_ID) = d.(dc_ID) ->
  replace_first d (pre ++ x :: post) = Some (pre ++ d :: post).
Proof.
  intros Hpre Hx. induction pre as [|y r IH]; simpl in *.
  - rewrite Hx, Z.eqb_refl. reflexivity.
  - apply andb_true_iff in Hpre as [Hy Hr].
    apply negb_true_iff in Hy. rewrite Hy, (IH Hr). reflexivity.
Qed.


Lemma find_app_skip (pre post : list Datacenter) (x : Datacenter) (i : Z) :
  forallb (fun y => negb (y.(dc_ID) =? i)) pre = true ->
  x.(dc_ID) = i ->
  find (fun d => d.(dc_ID) =? i) (pre ++ x :: post) = Some x.
Proof.
  intros Hpre Hx. induction pre as [|y r IH]; simpl in *.
  - rewrite Hx, Z.eqb_refl. reflexivity.
  - apply andb_true_iff in Hpre as [Hy Hr].
    apply negb_true_iff in Hy. rewrite Hy. exact (IH Hr).
Qed.


Lemma max_ID_ge (l : list Datacenter) (x : Datacenter) :
  In x l -> x.(dc_ID) <= max_ID l.
Proof.
  induction l as [|y r IH]; simpl; [tauto|].
  intros [<- | H]; [lia|]. specialize (IH H). lia.
Qed.



(** ** Concrete inputs *)

Definition dc_one : Datacenter :=
  mkDatacenter 1 1 "test" "vcloud" "u" "p" "ak" "sk" "url".

Definition st_one : Store := mkStore [dc_one] [].

(** [dc_one] referenced by the service "1" of [mockServices]. *)
Definition st_one_ref : Store := mkStore [dc_one] mockServices.

Definition user_g1 : AuthenticatedUser := mkAuthenticatedUser 1 "test" 1 false.
Definition user_g2 : AuthenticatedUser := mkAuthenticatedUser 2 "test2" 2 false.
Definition user_g0 : AuthenticatedUser := mkAuthenticatedUser 3 "nogroup" 0 false.

Definition creds_body : option DatacenterJSON :=
  Some (mkDatacenterJSON None None None None (Some "x") (Some "y") None None None).

Definition new_dc_body (name : string) (gid : Z) : option DatacenterJSON :=
  Some (mkDatacenterJSON None (Some gid) (Some name) (Some "vcloud")
          (Some "test") (Some "test") None None (Some "test")).

(** ** Claims *)

(** C1 (code_bug). A non-admin caller of group 2 updates the datacenter of
    group 1: the ownership test of [updateDatacenterHandler] compares the
    caller's group with itself, so the update is answered 200 and persisted
    instead of failing with Unauthorized. *)
Lemma update_cross_tenant_accepted :
  updateDatacenterHandler no_faults user_g2 creds_body 1 st_one
  = (Respond 200 (PDatacenter (mkDatacenter 0 0 "" "" "x" "y" "" "" "")),
     mkStore [mkDatacenter 1 1 "test" "vcloud" "x" "y" "" "" "url"] []).
Proof. reflexivity. Qed.

(** C2. On every creation answered 200 with a datacenter, that datacenter's
    [GroupID] is the caller's, whatever the body carried; it is the one
    persisted when [Save] succeeds. *)
Theorem create_stamps_group (fl : Faults) (au : AuthenticatedUser)
    (body : option DatacenterJSON) (st st' : Store) (r : Datacenter) :
  createDatacenterHandler fl au body st = (Respond 200 (PDatacenter r), st') ->
  r.(dc_GroupID) = au.(au_GroupID) /\
  (fl.(save_fails) = false -> In r st'.(datacenters)).
Proof.
  unfold createDatacenterHandler.
  destruct (au_GroupID au =? 0); [congruence|].
  destruct (Map body) as [d|]; [|congruence].
  destruct (Validate d); [congruence|].
  destruct (FindByName _ st); [congruence|].
  unfold Save. destruct (save_fails fl) eqn:Hf.
  - intros H. injection H as <- <-. split; [reflexivity|discriminate].
  - destruct (dc_ID (set_GroupID d (au_GroupID au)) =? 0).
    + intros H. injection H as <- <-. simpl. split; [reflexivity|].
      intros _. apply in_or_app. right. left. reflexivity.
    + destruct (replace_first _ _) eqn:Hr; intros H; injection H as <- <-;
        (split; [reflexivity|intros _]); simpl.
      * clear -Hr. revert l Hr. induction (datacenters st) as [|y t IH];
          simpl; intros l Hr; [discriminate|].
        destruct (dc_ID y =? _).
        -- injection Hr as <-. left. reflexivity.
        -- destruct (replace_first _ t) eqn:Ht; simpl in Hr; [|discriminate].
           injection Hr as <-. right. exact (IH _ eq_refl).
      * apply in_or_app. right. left. reflexivity.
Qed.

Lemma create_stamps_group_witness :
  createDatacenterHandler no_faults user_g1 (new_dc_body "new-test" 7) st_one
  = (Respond 200 (PDatacenter (mkDatacenter 2 1 "new-test" "vcloud" "test" "test" "" "" "test")),
     mkStore [dc_one; mkDatacenter 2 1 "new-test" "vcloud" "test" "test" "" "" "test"] [])
  /\ dc_GroupID (mkDatacenter 2 1 "new-test" "vcloud" "test" "test" "" "" "test") = 1.
Proof.
  split; [reflexivity|].
  apply (create_stamps_group no_faults user_g1 (new_dc_body "new-test" 7) st_one
           (mkStore [dc_one; mkDatacenter 2 1 "new-test" "vcloud" "test" "test" "" "" "test"] [])
           _ eq_refl).
Defined.

(** C3, counterexample. The owner deletes [dc_one] while the service "1"
    references it: the handler fails with HTTP 400, not with Conflict (409),
    and the store is left as it was. *)
Lemma delete_referenced_is_400 :
  deleteDatacenterHandler no_faults user_g1 1 st_one_ref
  = (Err (HTTPError 400 "Existing services are referring to this datacenter."), st_one_ref)
  /\ 400 <> 409.
Proof. split; [reflexivity|discriminate]. Qed.

(** C3, as amended. For a delete by a caller whose group owns the target:
    when the referencing-services lookup succeeds and at least one service
    references the datacenter, the handler fails with HTTP 400 and the store
    is unchanged; when no service references it and the store's delete
    succeeds, the handler answers 200 with an empty body and the datacenter
    is removed from the store. *)
Theorem delete_owner_referential_integrity (fl : Faults) (au : AuthenticatedUser)
    (id : Z) (st : Store) (d : Datacenter) :
  FindByID id st = Some d ->
  au.(au_GroupID) = d.(dc_GroupID) ->
  fl.(services_fails) = false ->
  ((exists s, In s st.(services) /\ s.(sv_DatacenterID) = d.(dc_ID)) ->
   deleteDatacenterHandler fl au id st
   = (Err (HTTPError 400 "Existing services are referring to this datacenter."), st)) /\
  ((forall s, In s st.(services) -> s.(sv_DatacenterID) <> d.(dc_ID)) ->
   fl.(delete_fails) = false ->
   deleteDatacenterHandler fl au id st
   = (Respond 200 (PText ""),
      mkStore (remove_first d.(dc_ID) st.(datacenters)) st.(services))).
Proof.
  intros Hfind Hgrp Hsv.
  unfold deleteDatacenterHandler, Services.
  rewrite Hfind, Hgrp, Z.eqb_refl, Hsv. simpl. split.
  - intros [s [Hin Hs]].
    destruct (filter _ (services st)) eqn:Hfl.
    + exfalso. assert (Hin' : In s (filter (fun s0 => sv_DatacenterID s0 =? dc_ID d) (services st))).
      { apply filter_In. split; [exact Hin|]. apply Z.eqb_eq. exact Hs. }
      rewrite Hfl in Hin'. exact Hin'.
    + simpl. replace (0 <? Z.of_nat (S (length l))) with true by (symmetry; apply Z.ltb_lt; lia).
      reflexivity.
  - intros Hnone Hdel.
    replace (filter (fun s => sv_DatacenterID s =? dc_ID d) (services st)) with (@nil Service).
    + simpl. unfold Delete. rewrite Hdel. reflexivity.
    + clear -Hnone. induction (services st) as [|y t IH]; simpl; [reflexivity|].
      replace (sv_DatacenterID y =? dc_ID d) with false.
      * apply IH. intros s Hs. apply Hnone. right. exact Hs.
      * symmetry. apply Z.eqb_neq. apply Hnone. left. reflexivity.
Qed.

Lemma delete_owner_referential_integrity_witness :
  deleteDatacenterHandler no_faults user_g1 1 st_one_ref
  = (Err (HTTPError 400 "Existing services are referring to this datacenter."), st_one_ref) /\
  deleteDatacenterHandler no_faults user_g1 1 st_one
  = (Respond 200 (PText ""), mkStore [] []).
Proof.
  split.
  - apply (delete_owner_referential_integrity no_faults user_g1 1 st_one_ref dc_one
             eq_refl eq_refl eq_refl).
    exists (mkService "1" "test" 1 1). split; [left; reflexivity|reflexivity].
  - apply (delete_owner_referential_integrity no_faults user_g1 1 st_one dc_one
             eq_refl eq_refl eq_refl); [|reflexivity].
    intros s [].
Defined.




(** ** Service subscribers *)

(** The query a [service.get] message carries: Go's zero [Service] when the
    payload is empty. *)
Definition query_of (msg : Msg) : Service := with_default zero_Service msg.(msg_Data).

(** The matching rule the claims state for [service.get]. *)
Definition service_matches (qs s : Service) : Prop :=
  s.(sv_ID) = qs.(sv_ID) /\ (qs.(sv_GroupID) <> 0 -> s.(sv_GroupID) = qs.(sv_GroupID)).

Lemma get_loop_some (qs : Service) (l : list Service) (s : Service) :
  get_loop qs l = Some s -> In s l /\ service_matches qs s.
Proof.
  induction l as [|y t IH]; simpl; [discriminate|].
  destruct (sv_GroupID qs =? 0) eqn:Hz; simpl;
    destruct (String.eqb (sv_ID y) (sv_ID qs)) eqn:Hid;
    rewrite ?andb_false_r, ?andb_true_r; simpl.
  - intros H. injection H as <-. apply String.eqb_eq in Hid. apply Z.eqb_eq in Hz.
    split; [left; reflexivity|]. split; [exact Hid|]. intros Hc. contradiction.
  - intros H. destruct (IH H) as [Hin Hm]. split; [right; exact Hin|exact Hm].
  - destruct (sv_GroupID y =? sv_GroupID qs) eqn:Hg.
    + intros H. injection H as <-. apply String.eqb_eq in Hid. apply Z.eqb_eq in Hg.
      split; [left; reflexivity|]. split; [exact Hid|]. intros _. exact Hg.
    + intros H. destruct (IH H) as [Hin Hm]. split; [right; exact Hin|exact Hm].
  - intros H. destruct (IH H) as [Hin Hm]. split; [right; exact Hin|exact Hm].
Qed.

Lemma get_loop_none (qs : Service) (l : list Service) :
  get_loop qs l = None -> forall s, In s l -> ~ service_matches qs s.
Proof.
  induction l as [|y t IH]; simpl; [tauto|].
  intros H s [<- | Hin] [Hid Hg].
  - apply String.eqb_eq in Hid. rewrite Hid in H.
    destruct (sv_GroupID qs =? 0) eqn:Hz; simpl in H; [discriminate|].
    apply Z.eqb_neq in Hz. rewrite (Hg Hz), Z.eqb_refl in H. discriminate.
  - destruct (negb (sv_GroupID qs =? 0) && _ && _); [discriminate|].
    destruct ((sv_GroupID qs =? 0) && _); [discriminate|].
    exact (IH H s Hin (conj Hid Hg)).
Qed.

(** C5. Every message on [service.get] is answered by exactly one publication
    on its reply address. A service is returned only if it is stored and its
    ID equals the query's and, when the query's group is non-zero, its group
    equals the query's too; a service is returned whenever one matches; and
    when none matches the reply is the payload [{"error":"not found"}]. *)
Theorem get_service_reply (msg : Msg) :
  exists p, getServiceSubcriber mockServices msg = [mkPublication msg.(msg_Reply) p] /\
    (forall s, p = RService s -> In s mockServices /\ service_matches (query_of msg) s) /\
    ((exists s, In s mockServices /\ service_matches (query_of msg) s) ->
     exists s, p = RService s) /\
    ((forall s, In s mockServices -> ~ service_matches (query_of msg) s) ->
     p = RRaw not_found_payload).
Proof.
  unfold getServiceSubcriber, query_of.
  destruct (msg_Data msg) as [qs|].
  - destruct (get_loop qs mockServices) as [s|] eqn:Hl.
    + exists (RService s). split; [reflexivity|]. split; [|split].
      * intros s' H. injection H as <-. exact (get_loop_some _ _ _ Hl).
      * intros _. eauto.
      * intros Hn. destruct (get_loop_some _ _ _ Hl) as [Hin Hm].
        exfalso. exact (Hn s Hin Hm).
    + exists (RRaw not_found_payload). split; [reflexivity|]. split; [|split].
      * discriminate.
      * intros [s [Hin Hm]]. exfalso. exact (get_loop_none _ _ Hl s Hin Hm).
      * reflexivity.
  - exists (RRaw not_found_payload). split; [reflexivity|]. split; [|split].
    + discriminate.
    + intros [s [Hin [Hid _]]]. exfalso.
      destruct Hin as [<- | [<- | []]]; simpl in Hid; discriminate.
    + reflexivity.
Qed.

(** C8. Every message on [service.find] is answered by exactly one
    publication on its reply address, carrying every stored service, whatever
    the message holds. *)
Theorem find_service_unfiltered (msg : Msg) :
  findServiceSubcriber mockServices msg
  = [mkPublication msg.(msg_Reply) (RServices mockServices)].
Proof. reflexivity. Qed.

(** ** Listing *)

(** C6. When the backend lookup succeeds, [GET /datacenters/] answers 200
    with a list whose elements are exactly the stored datacenters visible to
    the caller (all of them for an admin, those of the caller's group
    otherwise), each redacted and then passed to the [Improve] enrichment
    step; provided [Improve] keeps the identity and ownership fields and
    attaches no credentials, every element keeps the ID and GroupID of its
    stored datacenter and has [Password], [AccessKeyID] and
    [SecretAccessKey] empty. *)
Theorem list_datacenters_scoped_redacted (Improve : Datacenter -> Datacenter)
    (lookup_fails : bool) (au : AuthenticatedUser) (st : Store) :
  (forall d, (Improve d).(dc_ID) = d.(dc_ID) /\ (Improve d).(dc_GroupID) = d.(dc_GroupID) /\
             (Improve d).(dc_Password) = d.(dc_Password) /\
             (Improve d).(dc_AccessKeyID) = d.(dc_AccessKeyID) /\
             (Improve d).(dc_SecretAccessKey) = d.(dc_SecretAccessKey)) ->
  lookup_fails = false ->
  exists l, getDatacentersHandler Improve lookup_fails au st = Respond 200 (PDatacenters l) /\
    (forall r, In r l <->
       exists d, In d st.(datacenters) /\
         (au.(au_Admin) = true \/ d.(dc_GroupID) = au.(au_GroupID)) /\
         r = Improve (Redact d)) /\
    Forall (fun r => exists d, In d st.(datacenters) /\
                     r.(dc_ID) = d.(dc_ID) /\ r.(dc_GroupID) = d.(dc_GroupID)) l /\
    Forall (fun r => r.(dc_Password) = "" /\ r.(dc_AccessKeyID) = "" /\
                     r.(dc_SecretAccessKey) = "") l.
Proof.
  intros HI Hok. unfold getDatacentersHandler, FindAll, au_Datacenters.
  rewrite Hok.
  exists (map (fun d => Improve (Redact d))
            (if au_Admin au then datacenters st
             else filter (fun d => dc_GroupID d =? au_GroupID au) (datacenters st))).
  split; [destruct (au_Admin au); reflexivity|].
  assert (Hvis : forall d, In d (if au_Admin au then datacenters st
                   else filter (fun d => dc_GroupID d =? au_GroupID au) (datacenters st))
                 <-> In d (datacenters st) /\
                     (au_Admin au = true \/ dc_GroupID d = au_GroupID au)).
  { intros d. destruct (au_Admin au); split.
    - intros Hin. auto.
    - intros [Hin _]. exact Hin.
    - intros Hin. apply filter_In in Hin as [Hin Hg]. apply Z.eqb_eq in Hg. auto.
    - intros [Hin [Hc | Hg]]; [discriminate|]. apply filter_In.
      split; [exact Hin|]. apply Z.eqb_eq. exact Hg. }
  split; [|split].
  - intros r. rewrite in_map_iff. split.
    + intros [d [<- Hin]]. apply Hvis in Hin as [Hin Hv]. exists d. auto.
    + intros [d [Hin [Hv ->]]]. exists d. split; [reflexivity|]. apply Hvis. auto.
  - apply Forall_forall. intros r Hr. apply in_map_iff in Hr as [d [<- Hin]].
    apply Hvis in Hin as [Hin _]. exists d. split; [exact Hin|].
    destruct (HI (Redact d)) as (H1 & H2 & _). rewrite H1, H2. split; reflexivity.
  - apply Forall_forall. intros r Hr. apply in_map_iff in Hr as [d [<- _]].
    destruct (HI (Redact d)) as (_ & _ & H3 & H4 & H5). rewrite H3, H4, H5.
    simpl. auto.
Qed.

(** An enrichment that fills in a presentation default for an empty type. *)
Definition improve_type (d : Datacenter) : Datacenter :=
  mkDatacenter d.(dc_ID) d.(dc_GroupID) d.(dc_Name)
    (if String.eqb d.(dc_Type) "" then "vcloud" else d.(dc_Type))
    d.(dc_Username) d.(dc_Password) d.(dc_AccessKeyID) d.(dc_SecretAccessKey)
    d.(dc_VCloudURL).

Lemma list_datacenters_scoped_redacted_witness :
  getDatacentersHandler improve_type false user_g2
    (mkStore [dc_one; mkDatacenter 2 2 "b" "" "u2" "p2" "a2" "s2" "x"] [])
  = Respond 200 (PDatacenters [mkDatacenter 2 2 "b" "vcloud" "u2" "" "" "" "x"]) /\
  exists l, getDatacentersHandler improve_type false user_g2
              (mkStore [dc_one; mkDatacenter 2 2 "b" "" "u2" "p2" "a2" "s2" "x"] [])
            = Respond 200 (PDatacenters l) /\
    (forall r, In r l <->
       exists d, In d [dc_one; mkDatacenter 2 2 "b" "" "u2" "p2" "a2" "s2" "x"] /\
         (au_Admin user_g2 = true \/ d.(dc_GroupID) = au_GroupID user_g2) /\
         r = improve_type (Redact d)) /\
    Forall (fun r => exists d, In d [dc_one; mkDatacenter 2 2 "b" "" "u2" "p2" "a2" "s2" "x"] /\
                     r.(dc_ID) = d.(dc_ID) /\ r.(dc_GroupID) = d.(dc_GroupID)) l /\
    Forall (fun r => r.(dc_Password) = "" /\ r.(dc_AccessKeyID) = "" /\
                     r.(dc_SecretAccessKey) = "") l.
Proof.
  split; [reflexivity|].
  apply (list_datacenters_scoped_redacted improve_type false user_g2
           (mkStore [dc_one; mkDatacenter 2 2 "b" "" "u2" "p2" "a2" "s2" "x"] [])).
  - intros d. repeat split.
  - reflexivity.
Defined.

(** ** Save failures *)

Definition save_failing : Faults := mkFaults true false false.

(** C7 (code_bug). When [Save] fails, both the create and the update handler
    only log the error and answer 200 with a body; the store is unchanged and
    no InternalError is returned. *)
Lemma save_failure_answered_200 :
  createDatacenterHandler save_failing user_g1 (new_dc_body "new-test" 1) st_one
  = (Respond 200 (PDatacenter (mkDatacenter 0 1 "new-test" "vcloud" "test" "test" "" "" "test")),
     st_one) /\
  updateDatacenterHandler save_failing user_g1 creds_body 1 st_one
  = (Respond 200 (PDatacenter (mkDatacenter 0 0 "" "" "x" "y" "" "" "")), st_one).
Proof. split; reflexivity. Qed.

(** ** Update *)

(** The shape of every update answered 200: the body decoded to [d], the
    target is the first stored datacenter with the identifier, and the new
    store is either the old one (failed [Save]) or the old one with that
    datacenter's credentials replaced by [d]'s, in place. *)
Lemma update_success_shape (fl : Faults) (au : AuthenticatedUser)
    (body : option DatacenterJSON) (id : Z) (st st' : Store) (p : payload) :
  store_ok st ->
  updateDatacenterHandler fl au body id st = (Respond 200 p, st') ->
  exists d existing pre post,
    Map body = Some d /\ p = PDatacenter d /\
    datacenters st = pre ++ existing :: post /\
    forallb (fun y => negb (y.(dc_ID) =? id)) pre = true /\
    existing.(dc_ID) = id /\
    FindByID id st = Some existing /\
    services st' = services st /\
    (datacenters st' = datacenters st \/
     datacenters st' = pre ++ set_credentials existing d.(dc_Username) d.(dc_Password)
                                d.(dc_AccessKeyID) d.(dc_SecretAccessKey) :: post).
Proof.
  intros Hok. unfold updateDatacenterHandler.
  destruct (Map body) as [d|]; [|congruence].
  destruct (FindByID id st) as [existing|] eqn:Hf; [|congruence].
  rewrite Z.eqb_refl. simpl.
  pose proof Hf as Hf'. unfold FindByID in Hf'.
  destruct (find_split _ _ _ Hf') as (pre & post & Hl & Hpre & Hx).
  apply Z.eqb_eq in Hx.
  unfold Save. destruct (save_fails fl).
  - intros H. injection H as <- <-.
    exists d, existing, pre, post. repeat split; auto.
  - assert (Hnz : dc_ID existing <> 0).
    { unfold store_ok in Hok. rewrite Forall_forall in Hok. apply Hok.
      rewrite Hl. apply in_or_app. right. left. reflexivity. }
    simpl. replace (dc_ID existing =? 0) with false by (symmetry; apply Z.eqb_neq; exact Hnz).
    rewrite Hl, (replace_first_split pre post existing); simpl.
    + intros H. injection H as <- <-.
      exists d, existing, pre, post. repeat split; auto.
    + rewrite Hx. exact Hpre.
    + reflexivity.
Qed.

(** C9. On every update answered 200 (over a store whose datacenters all
    carry an identifier), only the four credential fields of the target
    datacenter may change: the new stored entry keeps its ID, Name, Type,
    GroupID and VCloudURL, takes the request's Username, Password,
    AccessKeyID and SecretAccessKey, and replaces the target in place; no
    other datacenter and no service is touched. *)
Theorem update_only_credentials (fl : Faults) (au : AuthenticatedUser)
    (body : option DatacenterJSON) (id : Z) (st st' : Store) (p : payload) :
  store_ok st ->
  updateDatacenterHandler fl au body id st = (Respond 200 p, st') ->
  exists d existing updated pre post,
    Map body = Some d /\
    FindByID id st = Some existing /\
    datacenters st = pre ++ existing :: post /\
    updated.(dc_ID) = existing.(dc_ID) /\ updated.(dc_Name) = existing.(dc_Name) /\
    updated.(dc_Type) = existing.(dc_Type) /\
    updated.(dc_GroupID) = existing.(dc_GroupID) /\
    updated.(dc_VCloudURL) = existing.(dc_VCloudURL) /\
    updated.(dc_Username) = d.(dc_Username) /\ updated.(dc_Password) = d.(dc_Password) /\
    updated.(dc_AccessKeyID) = d.(dc_AccessKeyID) /\
    updated.(dc_SecretAccessKey) = d.(dc_SecretAccessKey) /\
    services st' = services st /\
    (datacenters st' = datacenters st \/ datacenters st' = pre ++ updated :: post).
Proof.
  intros Hok H.
  destruct (update_success_shape fl au body id st st' p Hok H)
    as (d & existing & pre & post & Hm & _ & Hl & _ & _ & Hf & Hs & Hst).
  exists d, existing, (set_credentials existing d.(dc_Username) d.(dc_Password)
                          d.(dc_AccessKeyID) d.(dc_SecretAccessKey)), pre, post.
  repeat split; auto.
Qed.

Lemma update_only_credentials_witness :
  store_ok st_one /\
  updateDatacenterHandler no_faults user_g1 creds_body 1 st_one
  = (Respond 200 (PDatacenter (mkDatacenter 0 0 "" "" "x" "y" "" "" "")),
     mkStore [mkDatacenter 1 1 "test" "vcloud" "x" "y" "" "" "url"] []) /\
  exists d existing updated pre post,
    Map creds_body = Some d /\
    FindByID 1 st_one = Some existing /\
    datacenters st_one = pre ++ existing :: post /\
    updated.(dc_ID) = existing.(dc_ID) /\ updated.(dc_Name) = existing.(dc_Name) /\
    updated.(dc_Type) = existing.(dc_Type) /\
    updated.(dc_GroupID) = existing.(dc_GroupID) /\
    updated.(dc_VCloudURL) = existing.(dc_VCloudURL) /\
    updated.(dc_Username) = d.(dc_Username) /\ updated.(dc_Password) = d.(dc_Password) /\
    updated.(dc_AccessKeyID) = d.(dc_AccessKeyID) /\
    updated.(dc_SecretAccessKey) = d.(dc_SecretAccessKey) /\
    services (mkStore [mkDatacenter 1 1 "test" "vcloud" "x" "y" "" "" "url"] []) = services st_one /\
    (datacenters (mkStore [mkDatacenter 1 1 "test" "vcloud" "x" "y" "" "" "url"] [])
       = datacenters st_one \/
     datacenters (mkStore [mkDatacenter 1 1 "test" "vcloud" "x" "y" "" "" "url"] [])
       = pre ++ updated :: post).
Proof.
  assert (Hok : store_ok st_one).
  { unfold store_ok. repeat constructor. simpl. discriminate. }
  split; [exact Hok|]. split; [reflexivity|].
  exact (update_only_credentials no_faults user_g1 creds_body 1 st_one _ _ Hok eq_refl).
Defined.

(** C10. On every update answered 200 (over a store whose datacenters all
    carry an identifier), the response serialises the decoded request entity,
    not the stored one: each of ID, Name, Type, GroupID and VCloudURL omitted
    from the body is zero in the response, while the datacenter the store
    then holds under the identifier keeps its previous values of them. *)
Theorem update_echoes_request (fl : Faults) (au : AuthenticatedUser)
    (body : option DatacenterJSON) (id : Z) (st st' : Store) (p : payload) :
  store_ok st ->
  updateDatacenterHandler fl au body id st = (Respond 200 p, st') ->
  exists j d existing stored,
    body = Some j /\ Map body = Some d /\ p = PDatacenter d /\
    (j.(j_ID) = None -> d.(dc_ID) = 0) /\
    (j.(j_Name) = None -> d.(dc_Name) = "") /\
    (j.(j_Type) = None -> d.(dc_Type) = "") /\
    (j.(j_GroupID) = None -> d.(dc_GroupID) = 0) /\
    (j.(j_VCloudURL) = None -> d.(dc_VCloudURL) = "") /\
    FindByID id st = Some existing /\
    FindByID id st' = Some stored /\
    stored.(dc_ID) = existing.(dc_ID) /\ stored.(dc_Name) = existing.(dc_Name) /\
    stored.(dc_Type) = existing.(dc_Type) /\
    stored.(dc_GroupID) = existing.(dc_GroupID) /\
    stored.(dc_VCloudURL) = existing.(dc_VCloudURL).
Proof.
  intros Hok H.
  destruct (update_success_shape fl au body id st st' p Hok H)
    as (d & existing & pre & post & Hm & Hp & Hl & Hpre & Hx & Hf & _ & Hst).
  destruct body as [j|]; [|discriminate].
  pose proof Hm as Hd. simpl in Hd. injection Hd as Hd.
  assert (Hstored : exists stored, FindByID id st' = Some stored /\
            stored.(dc_ID) = existing.(dc_ID) /\ stored.(dc_Name) = existing.(dc_Name) /\
            stored.(dc_Type) = existing.(dc_Type) /\
            stored.(dc_GroupID) = existing.(dc_GroupID) /\
            stored.(dc_VCloudURL) = existing.(dc_VCloudURL)).
  { destruct Hst as [Hst | Hst].
    - exists existing. unfold FindByID. rewrite Hst. split; [exact Hf|].
      repeat split.
    - eexists. unfold FindByID. rewrite Hst. split.
      + apply find_app_skip; [exact Hpre|]. exact Hx.
      + repeat split. }
  destruct Hstored as (stored & Hs & H1 & H2 & H3 & H4 & H5).
  exists j, d, existing, stored.
  subst d. simpl.
  repeat split; auto; intros Hn; rewrite Hn; reflexivity.
Qed.

Lemma update_echoes_request_witness :
  store_ok st_one /\
  exists j d existing stored,
    creds_body = Some j /\ Map creds_body = Some d /\
    PDatacenter (mkDatacenter 0 0 "" "" "x" "y" "" "" "") = PDatacenter d /\
    (j.(j_ID) = None -> d.(dc_ID) = 0) /\
    (j.(j_Name) = None -> d.(dc_Name) = "") /\
    (j.(j_Type) = None -> d.(dc_Type) = "") /\
    (j.(j_GroupID) = None -> d.(dc_GroupID) = 0) /\
    (j.(j_VCloudURL) = None -> d.(dc_VCloudURL) = "") /\
    FindByID 1 st_one = Some existing /\
    FindByID 1 (mkStore [mkDatacenter 1 1 "test" "vcloud" "x" "y" "" "" "url"] [])
      = Some stored /\
    stored.(dc_ID) = existing.(dc_ID) /\ stored.(dc_Name) = existing.(dc_Name) /\
    stored.(dc_Type) = existing.(dc_Type) /\
    stored.(dc_GroupID) = existing.(dc_GroupID) /\
    stored.(dc_VCloudURL) = existing.(dc_VCloudURL).
Proof.
  assert (Hok : store_ok st_one).
  { unfold store_ok. repeat constructor. simpl. discriminate. }
  split; [exact Hok|].
  exact (update_echoes_request no_faults user_g1 creds_body 1 st_one _ _ Hok eq_refl).
Defined.

(** * Further code: route parameters, the single-datacenter read and the
    [service.set] subscriber *)

(** ** [strconv.Atoi] on the [:datacenter] route parameter *)

Definition is_digit (c : ascii) : bool :=
  let n := nat_of_ascii c in (48 <=? n)%nat && (n <=? 57)%nat.

Definition int_max : Z := 2 ^ 63 - 1.
Definition int_min : Z := - 2 ^ 63.
Definition maxUint64 : Z := 2 ^ 64 - 1.

Definition is_sign (c : ascii) : bool :=
  Ascii.eqb c (ascii_of_nat 45) || Ascii.eqb c (ascii_of_nat 43).

Definition digit_value (c : ascii) : Z := Z.of_nat (nat_of_ascii c) - 48.

(** The digit loop of [Atoi]'s fast path (strings of 1 to 18 bytes):
    [ch -= '0'; if ch > 9 { return 0, syntaxError }; n = n*10 + int(ch)].
    [None] is the syntax error. *)
Fixpoint atoi_fast_loop (s : string) (n : Z) : option Z :=
  match s with
  | EmptyString => Some n
  | String c r =>
    if is_digit c then atoi_fast_loop r (n * 10 + digit_value c) else None
  end.

(** The loop of [strconv.ParseUint(s, 10, 64)]: a byte that is not a digit is
    a syntax error ([None]); once the value would exceed [maxUint64] the loop
    stops at once and returns [maxUint64] (a range error), without reading
    the remaining bytes. *)
Fixpoint parse_uint_loop (s : string) (n : Z) : option Z :=
  match s with
  | EmptyString => Some n
  | String c r =>
    if is_digit c then
      if n >=? maxUint64 / 10 + 1 then Some maxUint64
      else
        let n1 := n * 10 + digit_value c in
        if n1 >? maxUint64 then Some maxUint64 else parse_uint_loop r n1
    else None
  end.

(** [strconv.ParseUint(s, 10, 64)]: the empty string is a syntax error. *)
Definition ParseUint (s : string) : option Z :=
  match s with
  | EmptyString => None
  | _ => parse_uint_loop s 0
  end.

(** [strconv.ParseInt(s, 10, 0)] on a 64-bit platform, as the value it
    returns: 0 on a syntax error, the [int64] bound on a range error. *)
Definition ParseInt (s : string) : Z :=
  match s with
  | EmptyString => 0
  | String c r =>
    let '(neg, u) :=
      if Ascii.eqb c (ascii_of_nat 43) then (false, r)
      else if Ascii.eqb c (ascii_of_nat 45) then (true, r)
      else (false, s) in
    match ParseUint u with
    | None => 0
    | Some un =>
      if negb neg then (if un >=? 2 ^ 63 then int_max else un)
      else (if un >? 2 ^ 63 then int_min else - un)
    end
  end.

(** Go's [strconv.Atoi] on a 64-bit platform, as the value the handlers keep
    ([id, _ :=] and [id, err :=] with [err] overwritten): the fast path for
    strings of 1 to 18 bytes, [ParseInt] otherwise. *)
Definition Atoi (s : string) : Z :=
  let len := String.length s in
  if (0 <? len)%nat && (len <? 19)%nat then
    match s with
    | EmptyString => 0
    | String c r =>
      let body := if is_sign c then r else s in
      match body with
      | EmptyString => 0
      | _ =>
        match atoi_fast_loop body 0 with
        | None => 0
        | Some n => if Ascii.eqb c (ascii_of_nat 45) then - n else n
        end
      end
    end
  else ParseInt s.

Example Atoi_examples :
  Atoi "42" = 42 /\ Atoi "-7" = -7 /\ Atoi "+7" = 7 /\ Atoi "test" = 0 /\
  Atoi "" = 0 /\ Atoi "-" = 0 /\ Atoi "4x" = 0 /\
  Atoi "99999999999999999999" = int_max /\
  Atoi "99999999999999999999x" = int_max /\
  Atoi "-99999999999999999999x" = int_min /\
  Atoi "9223372036854775807" = int_max /\ Atoi "9223372036854775808" = int_max /\
  Atoi "-9223372036854775808" = int_min /\
  Atoi "000000000000000000000000042" = 42 /\ Atoi "x9999999999999999999" = 0.
Proof. repeat split; reflexivity. Qed.

(** [getDatacenterHandler]: lines 47-61.  No caller is consulted. *)
Definition getDatacenterHandler (param : string) (st : Store) : outcome :=
  let id := Atoi param in
  match FindByID id st with
  | None => Err ErrNotFound
  | Some d => Respond 200 (PDatacenter d)
  end.

(** [updateDatacenterHandler] and [deleteDatacenterHandler] with the route
    parameter parsed as lines 115 and 147 do. *)
Definition updateDatacenterRoute (fl : Faults) (au : AuthenticatedUser)
    (body : option DatacenterJSON) (param : string) (st : Store) : outcome * Store :=
  updateDatacenterHandler fl au body (Atoi param) st.

Definition deleteDatacenterRoute (fl : Faults) (au : AuthenticatedUser)
    (param : string) (st : Store) : outcome * Store :=
  deleteDatacenterHandler fl au (Atoi param) st.

(** ** [createServiceSubcriber]: src/unnamed/part_000 lines 59-69 *)

Definition set_sv_ID (s : Service) (v : string) : Service :=
  mkService v s.(sv_Name) s.(sv_GroupID) s.(sv_DatacenterID).

(** The decoded payload ([json.Unmarshal] errors ignored, so an empty
    payload leaves the zero [Service]) gets the fixed ID "3" and is echoed. *)
Definition createServiceSubcriber (msg : Msg) : list Publication :=
  let s := set_sv_ID (query_of msg) "3" in
  [mkPublication msg.(msg_Reply) (RService s)].

(** ** Helper lemmas for the further code *)

Lemma store_ok_find_0 (st : Store) : store_ok st -> FindByID 0 st = None.
Proof.
  unfold store_ok, FindByID. induction 1 as [|x l Hx _ IH]; simpl; [reflexivity|].
  replace (dc_ID x =? 0) with false by (symmetry; apply Z.eqb_neq; exact Hx).
  exact IH.
Qed.

Lemma find_ID_app_fresh (l : list Datacenter) (r : Datacenter) (i : Z) :
  (forall x, In x l -> x.(dc_ID) <> i) -> r.(dc_ID) = i ->
  find (fun d => d.(dc_ID) =? i) (l ++ [r]) = Some r.
Proof.
  intros Hl Hr. induction l as [|y t IH]; simpl.
  - rewrite Hr, Z.eqb_refl. reflexivity.
  - replace (dc_ID y =? i) with false.
    + apply IH. intros x Hx. apply Hl. right. exact Hx.
    + symmetry. apply Z.eqb_neq. apply Hl. left. reflexivity.
Qed.

Lemma find_remove_first_nodup (l : list Datacenter) (i : Z) :
  NoDup (map dc_ID l) ->
  find (fun d => d.(dc_ID) =? i) (remove_first i l) = None.
Proof.
  induction l as [|x r IH]; simpl; [reflexivity|].
  intros Hnd. inversion Hnd as [|? ? Hnin Hnd']; subst.
  destruct (dc_ID x =? i) eqn:Hx.
  - apply Z.eqb_eq in Hx. subst i. clear IH Hnd Hnd'.
    induction r as [|y t IHt]; simpl; [reflexivity|].
    simpl in Hnin. replace (dc_ID y =? dc_ID x) with false.
    + apply IHt. tauto.
    + symmetry. apply Z.eqb_neq. intros He. apply Hnin. left. exact He.
  - simpl. rewrite Hx. exact (IH Hnd').
Qed.

(** ** Route parameters *)

(** A route parameter whose first byte is neither a digit nor a sign parses
    to 0, whatever follows. *)
Theorem Atoi_non_numeric (c : ascii) (r : string) :
  is_digit c = false -> c <> ascii_of_nat 45 -> c <> ascii_of_nat 43 ->
  Atoi (String c r) = 0.
Proof.
  intros Hd Hm Hp. apply Ascii.eqb_neq in Hm, Hp.
  unfold Atoi, ParseInt, ParseUint, is_sign. rewrite Hm, Hp. simpl. rewrite Hd.
  destruct (S (String.length r) <? 19)%nat; reflexivity.
Qed.

Lemma Atoi_non_numeric_witness : Atoi "test" = 0.
Proof.
  apply Atoi_non_numeric; [reflexivity| |]; intros H; discriminate H.
Defined.

(** Over a store whose datacenters all carry an identifier, a route parameter
    that parses to 0 (every non-numeric parameter) makes the single read, the
    delete and every update with a decodable body fail with NotFound, leaving
    the store unchanged. *)
Theorem zero_param_not_found (param : string) (st : Store) :
  store_ok st -> Atoi param = 0 ->
  getDatacenterHandler param st = Err ErrNotFound /\
  (forall fl au, deleteDatacenterRoute fl au param st = (Err ErrNotFound, st)) /\
  (forall fl au j, updateDatacenterRoute fl au (Some j) param st = (Err ErrNotFound, st)).
Proof.
  intros Hok Hp. pose proof (store_ok_find_0 st Hok) as H0.
  unfold getDatacenterHandler, deleteDatacenterRoute, updateDatacenterRoute,
    deleteDatacenterHandler, updateDatacenterHandler.
  rewrite Hp, H0. repeat split.
Qed.

Lemma zero_param_not_found_witness :
  getDatacenterHandler "test" st_one = Err ErrNotFound /\
  deleteDatacenterRoute no_faults user_g1 "test" st_one = (Err ErrNotFound, st_one).
Proof.
  assert (Hok : store_ok st_one).
  { unfold store_ok. repeat constructor. simpl. discriminate. }
  destruct (zero_param_not_found "test" st_one Hok eq_refl) as (H1 & H2 & _).
  split; [exact H1|exact (H2 no_faults user_g1)].
Defined.

(** ** Create *)

(** Round trip: a datacenter created from a body without an ID, with a
    working store, is returned by the single read on its new identifier. *)
Theorem create_then_get (fl : Faults) (au : AuthenticatedUser)
    (body : option DatacenterJSON) (st st' : Store) (d r : Datacenter) (param : string) :
  fl.(save_fails) = false ->
  Map body = Some d -> d.(dc_ID) = 0 ->
  createDatacenterHandler fl au body st = (Respond 200 (PDatacenter r), st') ->
  Atoi param = r.(dc_ID) ->
  getDatacenterHandler param st' = Respond 200 (PDatacenter r).
Proof.
  intros Hs Hm Hid. unfold createDatacenterHandler.
  destruct (au_GroupID au =? 0); [congruence|].
  rewrite Hm. destruct (Validate d); [congruence|].
  destruct (FindByName _ st); [congruence|].
  unfold Save. rewrite Hs. simpl. rewrite Hid. simpl.
  intros H. injection H as <- <-. intros Hp.
  unfold getDatacenterHandler, FindByID. rewrite Hp. simpl.
  rewrite (find_ID_app_fresh (datacenters st)
             (set_ID (set_GroupID d (au_GroupID au)) (max_ID (datacenters st) + 1))
             (max_ID (datacenters st) + 1)); [reflexivity| |reflexivity].
  intros x Hx. pose proof (max_ID_ge _ _ Hx). lia.
Qed.

Lemma create_then_get_witness :
  getDatacenterHandler "2"
    (mkStore [dc_one; mkDatacenter 2 1 "new-test" "vcloud" "test" "test" "" "" "test"] [])
  = Respond 200 (PDatacenter (mkDatacenter 2 1 "new-test" "vcloud" "test" "test" "" "" "test")).
Proof.
  exact (create_then_get no_faults user_g1 (new_dc_body "new-test" 7) st_one _
           (mkDatacenter 0 7 "new-test" "vcloud" "test" "test" "" "" "test") _ "2"
           eq_refl eq_refl eq_refl eq_refl eq_refl).
Defined.

(** The create handler changes the store only when it answers 200 with a
    datacenter; a caller without a group is answered 401 before the body is
    even decoded. *)
Theorem create_store_unchanged_unless_200 (fl : Faults) (au : AuthenticatedUser)
    (body : option DatacenterJSON) (st st' : Store) (o : outcome) :
  createDatacenterHandler fl au body st = (o, st') ->
  ((forall r, o <> Respond 200 (PDatacenter r)) -> st' = st) /\
  (au.(au_GroupID) = 0 -> o = Respond 401 (PText msg_no_group) /\ st' = st).
Proof.
  unfold createDatacenterHandler.
  destruct (au_GroupID au =? 0) eqn:Hz.
  - intros H. injection H as <- <-. split; [reflexivity|]. auto.
  - assert (Hg : au_GroupID au <> 0) by (apply Z.eqb_neq; exact Hz).
    destruct (Map body) as [d|];
      [destruct (Validate d); [|destruct (FindByName _ st)]|];
      try (intros H; injection H as <- <-; split; [reflexivity|intros; contradiction]).
    destruct (Save fl _ st) as [[d' st'']|e]; intros H; injection H as <- <-;
      (split; [|intros; contradiction]).
    + intros Hn. exfalso. exact (Hn d' eq_refl).
    + reflexivity.
Qed.

Lemma create_store_unchanged_unless_200_witness :
  createDatacenterHandler no_faults user_g0 None st_one
  = (Respond 401 (PText msg_no_group), st_one) /\
  (Respond 401 (PText msg_no_group) = Respond 401 (PText msg_no_group) /\ st_one = st_one).
Proof.
  split; [reflexivity|].
  exact (proj2 (create_store_unchanged_unless_200 no_faults user_g0 None st_one st_one
                  (Respond 401 (PText msg_no_group)) eq_refl) eq_refl).
Defined.

(** The create handler keeps the ID of the request body: a body carrying the
    identifier of a stored datacenter (of any group) with an unused name
    overwrites that datacenter in place with the new entity, stamped with the
    caller's group, instead of inserting a new one. *)
Theorem create_with_existing_ID_overwrites (fl : Faults) (au : AuthenticatedUser)
    (body : option DatacenterJSON) (st : Store) (d old : Datacenter) :
  fl.(save_fails) = false -> au.(au_GroupID) <> 0 ->
  Map body = Some d -> Validate d = None ->
  (forall x, In x st.(datacenters) -> x.(dc_Name) <> d.(dc_Name)) ->
  d.(dc_ID) <> 0 -> FindByID d.(dc_ID) st = Some old ->
  exists st',
    createDatacenterHandler fl au body st
    = (Respond 200 (PDatacenter (set_GroupID d au.(au_GroupID))), st') /\
    FindByID d.(dc_ID) st' = Some (set_GroupID d au.(au_GroupID)) /\
    length st'.(datacenters) = length st.(datacenters).
Proof.
  intros Hs Hg Hm Hv Hn Hid Hf.
  unfold FindByID in Hf.
  destruct (find_split _ _ _ Hf) as (pre & post & Hl & Hpre & Hx).
  apply Z.eqb_eq in Hx.
  unfold createDatacenterHandler.
  replace (au_GroupID au =? 0) with false by (symmetry; apply Z.eqb_neq; exact Hg).
  rewrite Hm, Hv.
  replace (FindByName _ st) with (@None Datacenter).
  2: { symmetry. unfold FindByName. simpl. clear -Hn.
       induction (datacenters st) as [|y t IH]; simpl; [reflexivity|].
       replace (String.eqb (dc_Name y) (dc_Name d)) with false.
       - apply IH. intros x Hx. apply Hn. right. exact Hx.
       - symmetry. apply String.eqb_neq. apply Hn. left. reflexivity. }
  unfold Save. rewrite Hs. simpl.
  replace (dc_ID d =? 0) with false by (symmetry; apply Z.eqb_neq; exact Hid).
  rewrite Hl, (replace_first_split pre post old (set_GroupID d (au_GroupID au)));
    [| exact Hpre | exact Hx].
  eexists. split; [reflexivity|]. split.
  - unfold FindByID. simpl. apply find_app_skip; [exact Hpre|reflexivity].
  - simpl. rewrite !length_app. reflexivity.
Qed.

Lemma create_with_existing_ID_overwrites_witness :
  createDatacenterHandler no_faults user_g2
    (Some (mkDatacenterJSON (Some 1) None (Some "other") (Some "vcloud")
             None None None None None)) st_one
  = (Respond 200 (PDatacenter (mkDatacenter 1 2 "other" "vcloud" "" "" "" "" "")),
     mkStore [mkDatacenter 1 2 "other" "vcloud" "" "" "" "" ""] []) /\
  exists st',
    createDatacenterHandler no_faults user_g2
      (Some (mkDatacenterJSON (Some 1) None (Some "other") (Some "vcloud")
               None None None None None)) st_one
    = (Respond 200 (PDatacenter (set_GroupID (mkDatacenter 1 0 "other" "vcloud" "" "" "" "" "") 2)), st') /\
    FindByID 1 st' = Some (set_GroupID (mkDatacenter 1 0 "other" "vcloud" "" "" "" "" "") 2) /\
    length st'.(datacenters) = length st_one.(datacenters).
Proof.
  split; [reflexivity|].
  apply (create_with_existing_ID_overwrites no_faults user_g2
           (Some (mkDatacenterJSON (Some 1) None (Some "other") (Some "vcloud")
                    None None None None None)) st_one
           (mkDatacenter 1 0 "other" "vcloud" "" "" "" "" "") dc_one
           eq_refl ltac:(discriminate) eq_refl eq_refl); [| discriminate | reflexivity].
  intros x [<- | []]. discriminate.
Defined.

(** ** Update *)

(** The update handler never consults the caller: its outcome and new store
    are the same for every authenticated user, and it never fails with
    Unauthorized. *)
Theorem update_caller_independent (fl : Faults) (au1 au2 : AuthenticatedUser)
    (body : option DatacenterJSON) (id : Z) (st : Store) :
  updateDatacenterHandler fl au1 body id st = updateDatacenterHandler fl au2 body id st /\
  fst (updateDatacenterHandler fl au1 body id st) <> Err ErrUnauthorized.
Proof.
  unfold updateDatacenterHandler. rewrite !Z.eqb_refl. simpl.
  destruct (Map body) as [d|]; [|split; [reflexivity|discriminate]].
  destruct (FindByID id st); [|split; [reflexivity|discriminate]].
  split; [reflexivity|]. destruct (Save fl _ st) as [[]|]; discriminate.
Qed.

(** The update handler checks the body before the target: an undecodable
    body fails with a bad-request error, a missing target with NotFound; in
    every outcome other than 200 the store is unchanged. *)
Theorem update_errors (fl : Faults) (au : AuthenticatedUser)
    (body : option DatacenterJSON) (id : Z) (st st' : Store) (o : outcome) :
  updateDatacenterHandler fl au body id st = (o, st') ->
  (body = None -> o = Err ErrBadReqBody /\ st' = st) /\
  (body <> None -> FindByID id st = None -> o = Err ErrNotFound /\ st' = st) /\
  ((forall p, o <> Respond 200 p) -> st' = st).
Proof.
  unfold updateDatacenterHandler.
  destruct body as [j|]; simpl.
  - destruct (FindByID id st) as [e|] eqn:Hf.
    + rewrite Z.eqb_refl. simpl. intros H. injection H as <- <-.
      split; [discriminate|]. split; [discriminate|].
      intros Hn. exfalso. exact (Hn _ eq_refl).
    + intros H. injection H as <- <-. split; [discriminate|]. auto.
  - intros H. injection H as <- <-. split; [auto|]. split; [|auto].
    intros Hc. contradiction.
Qed.

Lemma update_errors_witness :
  updateDatacenterHandler no_faults user_g1 creds_body 5 st_one = (Err ErrNotFound, st_one) /\
  Err ErrNotFound = Err ErrNotFound /\ st_one = st_one.
Proof.
  split; [reflexivity|].
  apply (proj1 (proj2 (update_errors no_faults user_g1 creds_body 5 st_one st_one _ eq_refl)));
    [discriminate|reflexivity].
Defined.

(** ** Delete *)

Definition admin_g2 : AuthenticatedUser := mkAuthenticatedUser 9 "admin" 2 true.

(** The delete handler has no admin bypass: any caller, admin or not, whose
    group differs from the target's fails with Unauthorized, before any
    service lookup, and the store is unchanged. *)
Theorem delete_other_group_unauthorized (fl : Faults) (au : AuthenticatedUser)
    (id : Z) (st : Store) (d : Datacenter) :
  FindByID id st = Some d -> au.(au_GroupID) <> d.(dc_GroupID) ->
  deleteDatacenterHandler fl au id st = (Err ErrUnauthorized, st).
Proof.
  intros Hf Hg. unfold deleteDatacenterHandler. rewrite Hf.
  replace (au_GroupID au =? dc_GroupID d) with false
    by (symmetry; apply Z.eqb_neq; exact Hg).
  reflexivity.
Qed.

Lemma delete_other_group_unauthorized_witness :
  deleteDatacenterHandler (mkFaults false false true) admin_g2 1 st_one_ref
  = (Err ErrUnauthorized, st_one_ref).
Proof.
  apply (delete_other_group_unauthorized _ admin_g2 1 st_one_ref dc_one eq_refl).
  discriminate.
Defined.

(** Over a store whose identifiers are pairwise distinct, once a delete
    through the route is answered 200, the single read on the same route
    parameter fails with NotFound. *)
Theorem delete_then_get (fl : Faults) (au : AuthenticatedUser) (param : string)
    (st st' : Store) (p : payload) :
  NoDup (map dc_ID st.(datacenters)) ->
  deleteDatacenterRoute fl au param st = (Respond 200 p, st') ->
  getDatacenterHandler param st' = Err ErrNotFound.
Proof.
  intros Hnd. unfold deleteDatacenterRoute, deleteDatacenterHandler.
  destruct (FindByID (Atoi param) st) as [d|] eqn:Hf; [|congruence].
  destruct (negb _); [congruence|].
  destruct (Services fl d st) as [ss|]; [|congruence].
  destruct (0 <? _); [congruence|].
  unfold Delete. destruct (delete_fails fl); [congruence|].
  intros H. injection H as _ <-.
  unfold FindByID in Hf. destruct (find_split _ _ _ Hf) as (_ & _ & _ & _ & Hx).
  apply Z.eqb_eq in Hx.
  unfold getDatacenterHandler, FindByID. simpl. rewrite <- Hx.
  rewrite (find_remove_first_nodup _ _ Hnd). reflexivity.
Qed.

Lemma delete_then_get_witness :
  deleteDatacenterRoute no_faults user_g1 "1" st_one = (Respond 200 (PText ""), mkStore [] []) /\
  getDatacenterHandler "1" (mkStore [] []) = Err ErrNotFound.
Proof.
  split; [reflexivity|].
  apply (delete_then_get no_faults user_g1 "1" st_one (mkStore [] []) (PText "")).
  - simpl. constructor; [intros []|constructor].
  - reflexivity.
Defined.

(** The delete handler changes the store only when it answers 200; a failed
    referencing-services lookup is answered 500. *)
Theorem delete_store_unchanged_unless_200 (fl : Faults) (au : AuthenticatedUser)
    (id : Z) (st st' : Store) (o : outcome) :
  deleteDatacenterHandler fl au id st = (o, st') ->
  ((forall p, o <> Respond 200 p) -> st' = st) /\
  (fl.(services_fails) = true -> o <> Err ErrUnauthorized -> o <> Err ErrNotFound ->
   o = Err (HTTPError 500 "services lookup failed")).
Proof.
  unfold deleteDatacenterHandler.
  destruct (FindByID id st) as [d|];
    [|intros H; injection H as <- <-; split; [auto|intros _ _ Hc; contradiction]].
  destruct (negb _);
    [intros H; injection H as <- <-; split; [auto|intros _ Hc; contradiction]|].
  unfold Services. destruct (services_fails fl) eqn:Hsf.
  - intros H. injection H as <- <-. split; auto.
  - destruct (0 <? _).
    + intros H. injection H as <- <-. split; [auto|discriminate].
    + unfold Delete. destruct (delete_fails fl).
      * intros H. injection H as <- <-. split; [auto|discriminate].
      * intros H. injection H as <- <-. split; [|discriminate].
        intros Hn. exfalso. exact (Hn _ eq_refl).
Qed.

Lemma delete_store_unchanged_unless_200_witness :
  deleteDatacenterHandler (mkFaults false false true) user_g1 1 st_one
  = (Err (HTTPError 500 "services lookup failed"), st_one) /\ st_one = st_one.
Proof.
  split; [reflexivity|].
  apply (proj1 (delete_store_unchanged_unless_200 (mkFaults false false true) user_g1 1
                  st_one st_one _ eq_refl)).
  discriminate.
Defined.

(** ** Service subscribers *)

(** [service.get] answers with the first service, in store order, that
    matches the query: every service stored before it fails to match. *)
Theorem get_loop_first_match (qs : Service) (l : list Service) (s : Service) :
  get_loop qs l = Some s ->
  exists pre post, l = pre ++ s :: post /\ service_matches qs s /\
    (forall x, In x pre -> ~ service_matches qs x).
Proof.
  induction l as [|y t IH]; simpl; [discriminate|].
  intros H.
  destruct (negb (sv_GroupID qs =? 0) && (sv_GroupID y =? sv_GroupID qs)
            && String.eqb (sv_ID y) (sv_ID qs)) eqn:H1;
  [|destruct ((sv_GroupID qs =? 0) && String.eqb (sv_ID y) (sv_ID qs)) eqn:H2].
  - injection H as <-. exists [], t. split; [reflexivity|].
    split; [|intros x []].
    apply (get_loop_some qs [y] y). simpl. rewrite H1. reflexivity.
  - injection H as <-. exists [], t. split; [reflexivity|].
    split; [|intros x []].
    apply (get_loop_some qs [y] y). simpl. rewrite H1, H2. reflexivity.
  - destruct (IH H) as (pre & post & -> & Hm & Hpre).
    exists (y :: pre), post. split; [reflexivity|]. split; [exact Hm|].
    intros x [<- | Hx]; [|exact (Hpre x Hx)].
    apply (get_loop_none qs [y]); [|left; reflexivity].
    simpl. rewrite H1, H2. reflexivity.
Qed.

Lemma get_loop_first_match_witness :
  get_loop (mkService "1" "" 0 0)
    [mkService "1" "a" 1 1; mkService "1" "b" 2 2] = Some (mkService "1" "a" 1 1) /\
  exists pre post,
    [mkService "1" "a" 1 1; mkService "1" "b" 2 2] = pre ++ mkService "1" "a" 1 1 :: post /\
    service_matches (mkService "1" "" 0 0) (mkService "1" "a" 1 1) /\
    (forall x, In x pre -> ~ service_matches (mkService "1" "" 0 0) x).
Proof.
  split; [reflexivity|].
  apply get_loop_first_match. reflexivity.
Defined.

(** [service.set] answers every message with exactly one publication on its
    reply address, carrying the decoded service with the fixed ID "3"; that
    service can never be read back: [service.get] with its ID, under any
    group, replies not found. *)
Theorem service_set_not_readable (m1 m2 : Msg) (q : Service) :
  msg_Data m2 = Some q -> sv_ID q = "3" ->
  createServiceSubcriber m1
  = [mkPublication m1.(msg_Reply)
       (RService (mkService "3" (query_of m1).(sv_Name) (query_of m1).(sv_GroupID)
                            (query_of m1).(sv_DatacenterID)))] /\
  getServiceSubcriber mockServices m2
  = [mkPublication m2.(msg_Reply) (RRaw not_found_payload)].
Proof.
  intros Hd Hq. split; [reflexivity|].
  unfold getServiceSubcriber. rewrite Hd.
  destruct (get_loop q mockServices) as [s|] eqn:Hl; [|reflexivity].
  destruct (get_loop_some _ _ _ Hl) as [Hin [Hid _]].
  rewrite Hq in Hid. exfalso.
  destruct Hin as [<- | [<- | []]]; discriminate.
Qed.

Lemma service_set_not_readable_witness :
  getServiceSubcriber mockServices (mkMsg "r" (Some (mkService "3" "" 0 0)))
  = [mkPublication "r" (RRaw not_found_payload)].
Proof.
  exact (proj2 (service_set_not_readable (mkMsg "s" None)
                  (mkMsg "r" (Some (mkService "3" "" 0 0))) (mkService "3" "" 0 0)
                  eq_refl eq_refl)).
Defined.
